(** * log_sentinel.py: the [LogAnomalyDetector] class

    A shallow embedding of [src/log_sentinel.py].  The class is a thin
    stateful wrapper around two scikit-learn estimators and one pandas
    constructor.  The wrapper is embedded statement by statement in a
    state-and-exception monad over the object's three attributes; the
    scikit-learn estimators are an interface ([sklearn]) whose operations
    the wrapper calls, since their bodies are not part of this repository.
    Calls to [print] only write to standard output and are left out. *)

From Stdlib Require Import Ascii String List ZArith QArith Bool Lia PeanoNat.
From Stdlib Require Import DecimalString.
Import ListNotations.
Close Scope Q_scope.
Open Scope nat_scope.
Open Scope string_scope.
Open Scope list_scope.

Set Implicit Arguments.

(** ** Python exceptions and results *)

(** The exception classes that can reach a caller of the class: the bare
    [Exception] raised by [predict] itself, and the two classes raised by
    the libraries underneath. *)
Inductive exn : Type :=
| Exception (msg : string)
| ValueError (msg : string)
| NotFittedError (msg : string).

Inductive result (A : Type) : Type :=
| Ok (a : A)
| Raise (e : exn).

Arguments Ok {A} a.
Arguments Raise {A} e.

Definition returned {A} (r : result A) : bool :=
  match r with Ok _ => true | Raise _ => false end.

(** ** A state-and-exception monad

    A method body runs on the object state [S]; an exception aborts the
    rest of the body but keeps the attribute writes made before it. *)

Definition M (S A : Type) : Type := S -> S * result A.

Definition ret {S A} (a : A) : M S A := fun s => (s, Ok a).

Definition bind {S A B} (m : M S A) (k : A -> M S B) : M S B :=
  fun s => match m s with
           | (s', Ok a) => k a s'
           | (s', Raise e) => (s', Raise e)
           end.

Definition raise {S A} (e : exn) : M S A := fun s => (s, Raise e).

Definition gets {S A} (f : S -> A) : M S A := fun s => (s, Ok (f s)).

Definition modify {S} (f : S -> S) : M S unit := fun s => (f s, Ok tt).

(** A library call that only reads: its exception propagates. *)
Definition call {S A} (r : result A) : M S A := fun s => (s, r).

Notation "x <- m ;; k" := (bind m (fun x => k))
  (at level 61, m at next level, right associativity).
Notation "m ;;; k" := (bind m (fun _ => k))
  (at level 61, right associativity).

(** ** pandas: the [DataFrame] constructor

    [pd.DataFrame(d)] on a dict of columns keeps the columns in the dict's
    order and raises [ValueError] unless all of them have one length.  Both
    columns built by [predict] hold Python strings. *)

Record DataFrame : Type := { columns : list (string * list string) }.

Definition same_length (n : nat) (cols : list (string * list string)) : bool :=
  forallb (fun c => Nat.eqb (length (snd c)) n) cols.

Definition pd_DataFrame (data : list (string * list string)) : result DataFrame :=
  match data with
  | [] => Ok {| columns := [] |}
  | (_, c) :: _ =>
      if same_length (length c) data
      then Ok {| columns := data |}
      else Raise (ValueError "All arrays must be of the same length")
  end.

(** Number of rows ([len(df)]). *)
Definition nrows (df : DataFrame) : nat :=
  match columns df with
  | [] => 0
  | (_, c) :: _ => length c
  end.

(** Row [i] as the list of its (column name, cell) fields ([df.iloc[i]]). *)
Fixpoint iloc_cols (cols : list (string * list string)) (i : nat)
  : option (list (string * string)) :=
  match cols with
  | [] => Some []
  | (name, c) :: rest =>
      match nth_error c i, iloc_cols rest i with
      | Some v, Some r => Some ((name, v) :: r)
      | _, _ => None
      end
  end.

Definition iloc (df : DataFrame) (i : nat) : option (list (string * string)) :=
  if Nat.ltb i (nrows df) then iloc_cols (columns df) i else None.

(** [row['name']]. *)
Fixpoint field (row : list (string * string)) (name : string) : option string :=
  match row with
  | [] => None
  | (k, v) :: rest => if String.eqb k name then Some v else field rest name
  end.

(** ** scikit-learn: the estimator interface

    [TfidfVectorizer] and [IsolationForest] objects are opaque; the wrapper
    only constructs them and calls the methods below.  [fit_transform] and
    [fit] write the estimator's fitted attributes (also when they raise, up
    to the point of the exception), so they return the new object;
    [transform], [predict] and [score_samples] read a fitted estimator.
    [fit] receives numpy's ambient generator, which an estimator built with
    [random_state=None] draws from.  [sk_predict] is
    [IsolationForest.predict], renamed apart from the wrapper's own
    [predict]. *)

Record sklearn : Type := {
  TfidfVectorizer_t : Type;
  IsolationForest_t : Type;
  csr_matrix : Type;
  RandomState : Type;
  float : Type;
  TfidfVectorizer : option string -> TfidfVectorizer_t;
  build_analyzer : TfidfVectorizer_t -> string -> list string;
  fit_transform : TfidfVectorizer_t -> list string
                  -> TfidfVectorizer_t * result csr_matrix;
  transform : TfidfVectorizer_t -> list string -> result csr_matrix;
  IsolationForest : Q -> option Z -> IsolationForest_t;
  fit : IsolationForest_t -> RandomState -> csr_matrix
        -> IsolationForest_t * result unit;
  sk_predict : IsolationForest_t -> csr_matrix -> result (list Z);
  score_samples : IsolationForest_t -> csr_matrix -> result (list float)
}.

(** ** The class *)

Section Detector.

Variable L : sklearn.

(** The attributes set by [__init__]. *)
Record LogAnomalyDetector : Type := {
  vectorizer : TfidfVectorizer_t L;
  model : IsolationForest_t L;
  is_trained : bool
}.

Definition set_vectorizer (v : TfidfVectorizer_t L) (self : LogAnomalyDetector) :=
  {| vectorizer := v; model := model self; is_trained := is_trained self |}.

Definition set_model (m : IsolationForest_t L) (self : LogAnomalyDetector) :=
  {| vectorizer := vectorizer self; model := m; is_trained := is_trained self |}.

Definition set_is_trained (b : bool) (self : LogAnomalyDetector) :=
  {| vectorizer := vectorizer self; model := model self; is_trained := b |}.

(** [__init__(self, contamination=0.05)] *)
Definition default_contamination : Q := (5 # 100)%Q.

Definition __init__ (contamination : Q) : LogAnomalyDetector :=
  {| vectorizer := TfidfVectorizer L (Some "english");
     model := IsolationForest L contamination (Some 42%Z);
     is_trained := false |}.

(** [self.vectorizer.fit_transform(logs)] *)
Definition vectorizer_fit_transform (logs : list string)
  : M LogAnomalyDetector (csr_matrix L) :=
  fun self =>
    let (v', r) := fit_transform L (vectorizer self) logs in
    (set_vectorizer v' self, r).

(** [self.model.fit(X)] *)
Definition model_fit (np_random : RandomState L) (X : csr_matrix L)
  : M LogAnomalyDetector unit :=
  fun self =>
    let (m', r) := fit L (model self) np_random X in
    (set_model m' self, r).

(** [train(self, logs)] *)
Definition train (np_random : RandomState L) (logs : list string)
  : M LogAnomalyDetector unit :=
  X <- vectorizer_fit_transform logs ;;
  model_fit np_random X ;;;
  modify (set_is_trained true).

Definition not_trained_msg : string :=
  "Model error: The model must be trained before prediction.".

(** The error the specification calls NotTrained. *)
Definition NotTrained : exn := Exception not_trained_msg.

Definition ANOMALY : string := "🔴 ANOMALY".
Definition NORMAL : string := "🟢 Normal".

(** ['🔴 ANOMALY' if p == -1 else '🟢 Normal'] *)
Definition status (p : Z) : string :=
  if Z.eqb p (-1) then ANOMALY else NORMAL.

(** [predict(self, new_logs)] *)
Definition predict (new_logs : list string)
  : M LogAnomalyDetector DataFrame :=
  trained <- gets is_trained ;;
  if negb trained then raise NotTrained
  else
    v <- gets vectorizer ;;
    X_new <- call (transform L v new_logs) ;;
    m <- gets model ;;
    predictions <- call (sk_predict L m X_new) ;;
    results <- call (pd_DataFrame [("Log_Message", new_logs);
                                   ("Status", map status predictions)]) ;;
    ret results.

End Detector.

Arguments __init__ L contamination : clear implicits.

(** ** Call histories

    A detector object lives through a sequence of method calls.  [run]
    replays a history; [train_completed] tells whether some [train] call
    of the history returned normally (a call that raised does not count). *)

Section Histories.

Variable L : sklearn.

Inductive method_call : Type :=
| Train (np_random : RandomState L) (logs : list string)
| Predict (new_logs : list string).

Definition exec (c : method_call) (self : LogAnomalyDetector L)
  : LogAnomalyDetector L * bool :=
  match c with
  | Train g logs => let (s, r) := train g logs self in (s, returned r)
  | Predict new_logs => let (s, r) := predict new_logs self in (s, returned r)
  end.

Fixpoint run (h : list method_call) (self : LogAnomalyDetector L)
  : LogAnomalyDetector L :=
  match h with
  | [] => self
  | c :: h' => run h' (fst (exec c self))
  end.

Fixpoint train_completed (h : list method_call) (self : LogAnomalyDetector L)
  : bool :=
  match h with
  | [] => false
  | c :: h' =>
      match c with
      | Train _ _ => snd (exec c self)
      | Predict _ => false
      end || train_completed h' (fst (exec c self))
  end.

(** Replaying only [predict] calls, one per batch of lines. *)
Definition run_predicts (batches : list (list string))
  (self : LogAnomalyDetector L) : LogAnomalyDetector L :=
  run (map Predict batches) self.

End Histories.

Arguments Train {L} np_random logs.
Arguments Predict {L} new_logs.

(** ** Contracts of the library

    What the proofs below take from scikit-learn's documentation, each as
    a named property of an [sklearn] instance. *)

Definition empty_vocabulary_msg : string :=
  "empty vocabulary; perhaps the documents only contain stop words".

(** The error the specification calls EmptyVocabulary. *)
Definition EmptyVocabulary : exn := ValueError empty_vocabulary_msg.



(** ** A small executable instance of the interface

    A bag-of-words vectorizer and a one-rule outlier model, used to run
    the class on concrete logs. *)

Module Mock.

Fixpoint split_on (sep : Ascii.ascii) (acc : string) (s : string) : list string :=
  match s with
  | EmptyString => [acc]
  | String a s' =>
      if Ascii.eqb a sep then acc :: split_on sep EmptyString s'
      else split_on sep (acc ++ String a EmptyString) s'
  end.

Definition english : list string := ["the"; "a"; "an"; "of"; "to"; "is"].

Definition mem (w : string) (ws : list string) : bool :=
  existsb (String.eqb w) ws.

Record vec : Type := {
  stop_words : option string;
  vocabulary_ : option (list string)
}.

Definition analyze (v : vec) (doc : string) : list string :=
  filter (fun w => Nat.leb 2 (String.length w)
                   && negb (match stop_words v with
                            | Some _ => mem w english
                            | None => false
                            end))
         (split_on " "%char EmptyString doc).

Fixpoint dedup (ws : list string) : list string :=
  match ws with
  | [] => []
  | w :: ws' => if mem w ws' then dedup ws' else w :: dedup ws'
  end.

Definition count (w : string) (ws : list string) : nat :=
  length (filter (String.eqb w) ws).

Definition row (vocab : list string) (tokens : list string) : list nat :=
  map (fun w => count w tokens) vocab.

Definition vec_fit_transform (v : vec) (logs : list string)
  : vec * result (list (list nat)) :=
  let docs := map (analyze v) logs in
  match dedup (concat docs) with
  | [] => (v, Raise EmptyVocabulary)
  | vocab => ({| stop_words := stop_words v; vocabulary_ := Some vocab |},
              Ok (map (row vocab) docs))
  end.

Definition vec_transform (v : vec) (logs : list string)
  : result (list (list nat)) :=
  match vocabulary_ v with
  | None => Raise (NotFittedError "The TF-IDF vectorizer is not fitted")
  | Some vocab => Ok (map (fun l => row vocab (analyze v l)) logs)
  end.

Record forest : Type := {
  contamination : Q;
  random_state : option Z;
  estimators_ : option (Z * list (list nat))
}.

Definition forest_fit (m : forest) (np_random : Z) (X : list (list nat))
  : forest * result unit :=
  match X with
  | [] => (m, Raise (ValueError "Found array with 0 sample(s)"))
  | _ =>
      let seed := match random_state m with Some s => s | None => np_random end in
      ({| contamination := contamination m; random_state := random_state m;
          estimators_ := Some (seed, X) |}, Ok tt)
  end.

Definition weight (r : list nat) : nat := fold_right Nat.add 0 r.

Definition forest_score_samples (m : forest) (X : list (list nat))
  : result (list Z) :=
  match estimators_ m with
  | None => Raise (NotFittedError "This IsolationForest instance is not fitted yet")
  | Some (seed, _) => Ok (map (fun r => (Z.of_nat (weight r) + seed)%Z) X)
  end.

Definition forest_predict (m : forest) (X : list (list nat))
  : result (list Z) :=
  match estimators_ m with
  | None => Raise (NotFittedError "This IsolationForest instance is not fitted yet")
  | Some _ => Ok (map (fun r => if Nat.eqb (weight r) 0 then (-1)%Z else 1%Z) X)
  end.

Definition lib : sklearn := {|
  TfidfVectorizer_t := vec;
  IsolationForest_t := forest;
  csr_matrix := list (list nat);
  RandomState := Z;
  float := Z;
  TfidfVectorizer := fun sw => {| stop_words := sw; vocabulary_ := None |};
  build_analyzer := analyze;
  fit_transform := vec_fit_transform;
  transform := vec_transform;
  IsolationForest := fun c rs =>
    {| contamination := c; random_state := rs; estimators_ := None |};
  fit := forest_fit;
  sk_predict := forest_predict;
  score_samples := forest_score_samples
|}.

(** Two lines of the simulation data set of the script. *)
Definition normal_log : string := "INFO: Cache refreshed successfully via Redis".
Definition attack_log : string := "FATAL: Application panicked due to NullPointer Exception".

(** A detector trained on one normal line. *)
Definition trained : LogAnomalyDetector lib :=
  fst (train (L := lib) 0%Z [normal_log] (__init__ lib default_contamination)).

(** A history with a failed [train] (only stop words) between two
    [predict] calls. *)
Definition untrained_history : list (method_call lib) :=
  [@Predict lib [normal_log];
   @Train lib 7%Z ["the a"; "of"];
   @Predict lib []].

End Mock.

(** Number of fields of each row ([len(df.columns)]). *)
Definition width (df : DataFrame) : nat := length (columns df).

(** ** The script

    The module's data set and its [__main__] block, with standard output
    as the list of the strings passed to [print], one per call. *)

Definition nl : string := String "010"%char EmptyString.

(** [str(n)] for a length or a counter. *)
Definition str (n : nat) : string := NilEmpty.string_of_uint (Nat.to_uint n).

(** [s * n] on a string. *)
Fixpoint str_mul (s : string) (n : nat) : string :=
  match n with
  | 0 => EmptyString
  | S n' => s ++ str_mul s n'
  end.

(** [l * n] on a list. *)
Definition list_mul {A : Type} (l : list A) (n : nat) : list A :=
  concat (repeat l n).

(** [l[:n]] and [l[-n:]] for a positive [n]. *)
Definition slice_to {A : Type} (n : nat) (l : list A) : list A := firstn n l.

Definition slice_last {A : Type} (n : nat) (l : list A) : list A :=
  skipn (length l - n) l.

Definition NORMAL_TRAFFIC_BASE : list string :=
  ["200 OK: GET /api/v1/users/profile - Latency 120ms";
   "200 OK: GET /api/v1/products/list - Latency 110ms";
   "200 OK: POST /api/v1/auth/login - Success";
   "INFO: Database connection established pool_size=10";
   "INFO: Cache refreshed successfully via Redis";
   "200 OK: GET /home/index.html - Latency 90ms";
   "200 OK: GET /assets/logo.png - Latency 20ms";
   "INFO: Cron job 'daily_cleanup' completed successfully";
   "200 OK: POST /api/v1/cart/add - Success";
   "INFO: Metrics pushed to Prometheus gateway"].

Definition NORMAL_TRAFFIC : list string := list_mul NORMAL_TRAFFIC_BASE 5.

Definition ANOMALY_BASE : list string :=
  ["401 Unauthorized: Failed login attempt from IP 192.168.1.50";
   "500 Internal Server Error: Database deadlock detected in transaction";
   "FATAL: Application panicked due to NullPointer Exception";
   "403 Forbidden: SQL Injection attempt detected in query param OR 1=1";
   "WARN: CPU usage spiked to 99% for process 'miner'";
   "ERROR: Connection refused to upstream payment gateway";
   "CRITICAL: Disk usage on /var/log reached 98%";
   "ALERT: Suspicious outbound traffic detected to known botnet IP";
   "503 Service Unavailable: Kubernetes Pod evicted due to OOMKilled";
   "SECURITY: Multiple failed SSH login attempts for root user"].

Definition ATTACK_TRAFFIC : list string := list_mul ANOMALY_BASE 5.

(** [NORMAL_TRAFFIC[:10] + ATTACK_TRAFFIC + NORMAL_TRAFFIC[-10:]] *)
Definition live_stream : list string :=
  slice_to 10 NORMAL_TRAFFIC ++ ATTACK_TRAFFIC ++ slice_last 10 NORMAL_TRAFFIC.

Definition rule : string := str_mul "-" 70.

Definition banner : string := "🛡️  INITIALIZING LOG SENTINEL AI..." ++ nl.

Definition learning_line (n : nat) : string :=
  "🧠  Learning Log Patterns from " ++ str n ++ " records (Training Phase)...".

Definition trained_line : string :=
  "✅  Model Trained successfully. Operational baseline established.".

Definition scanning_line (n : nat) : string :=
  "🔍  Scanning " ++ str n ++ " live logs for anomalies...".

Definition report_header : string :=
  nl ++ "📊  LIVE MONITORING REPORT (Anomalies Only):".

(** [f"{row['Status']} DETECTED: {row['Log_Message']}"] *)
Definition detected_line (st msg : string) : string :=
  st ++ " DETECTED: " ++ msg.

Definition total_line (anomaly_count : nat) : string :=
  "✅  Scan Complete. Total Anomalies Detected: " ++ str anomaly_count.

Definition note_line : string :=
  "    (Note: Normal logs are suppressed to reduce noise)".

(** [df.iterrows()]: the (index, row) pairs in index order. *)
Definition iterrows (df : DataFrame) : list (nat * list (string * string)) :=
  flat_map (fun i => match iloc df i with
                     | Some r => [(i, r)]
                     | None => []
                     end)
           (seq 0 (nrows df)).

(** The loop over [results.iterrows()]: [out] is the output so far.  A
    row without the column asked for ends the loop with the [KeyError]
    of that column name. *)
Fixpoint report_loop (rows : list (nat * list (string * string)))
  (out : list string) (anomaly_count : nat) : list string * (nat + string) :=
  match rows with
  | [] => (out, inl anomaly_count)
  | (_, row) :: rest =>
      match field row "Status" with
      | None => (out, inr "Status")
      | Some st =>
          if String.eqb st ANOMALY then
            match field row "Log_Message" with
            | None => (out, inr "Log_Message")
            | Some msg =>
                report_loop rest (out ++ [detected_line st msg])
                            (S anomaly_count)
            end
          else report_loop rest out anomaly_count
      end
  end.

(** The lines the loop prints for a list of rows that have both columns. *)
Definition detected_lines (rows : list (list (string * string))) : list string :=
  flat_map (fun row =>
              match field row "Status", field row "Log_Message" with
              | Some st, Some msg =>
                  if String.eqb st ANOMALY then [detected_line st msg] else []
              | _, _ => []
              end) rows.

(** The lines whose prediction is -1, in the order of the input. *)
Definition flagged (new_logs : list string) (predictions : list Z) : list string :=
  map fst (filter (fun lp => Z.eqb (snd lp) (-1)) (combine new_logs predictions)).

(** What ends the script early: an exception out of the detector, or the
    [KeyError] of a row lookup. *)
Inductive uncaught : Type :=
| DetectorError (e : exn)
| KeyError (key : string).

Section Script.

Variable L : sklearn.

(** A detector together with the output printed so far. *)
Definition Console : Type := (LogAnomalyDetector L * list string)%type.

Definition print (line : string) : M Console unit :=
  modify (fun w => (fst w, snd w ++ [line])).

(** A statement on [self]. *)
Definition on_self {A : Type} (m : M (LogAnomalyDetector L) A) : M Console A :=
  fun w => let (d, r) := m (fst w) in ((d, snd w), r).

(** [train(self, logs)] with its two [print] calls. *)
Definition train_io (np_random : RandomState L) (logs : list string)
  : M Console unit :=
  print (learning_line (length logs)) ;;;
  X <- on_self (vectorizer_fit_transform logs) ;;
  on_self (model_fit np_random X) ;;;
  on_self (modify (set_is_trained true)) ;;;
  print trained_line.

(** [predict(self, new_logs)] with its [print] call. *)
Definition predict_io (new_logs : list string) : M Console DataFrame :=
  trained <- on_self (gets (@is_trained L)) ;;
  if negb trained then raise NotTrained
  else
    print (scanning_line (length new_logs)) ;;;
    v <- on_self (gets (@vectorizer L)) ;;
    X_new <- call (transform L v new_logs) ;;
    m <- on_self (gets (@model L)) ;;
    predictions <- call (sk_predict L m X_new) ;;
    results <- call (pd_DataFrame [("Log_Message", new_logs);
                                   ("Status", map status predictions)]) ;;
    ret results.

(** The [__main__] block: the output printed and the exception that
    ended it, if one did. *)
Definition main (np_random : RandomState L) : list string * option uncaught :=
  let out := [banner] in
  let sentinel := __init__ L (1 # 10)%Q in
  match train_io np_random NORMAL_TRAFFIC (sentinel, out) with
  | ((_, out), Raise e) => (out, Some (DetectorError e))
  | ((sentinel, out), Ok _) =>
      let out := out ++ [rule] in
      match predict_io live_stream (sentinel, out) with
      | ((_, out), Raise e) => (out, Some (DetectorError e))
      | ((_, out), Ok results) =>
          let out := out ++ [report_header; rule] in
          match report_loop (iterrows results) out 0 with
          | (out, inr key) => (out, Some (KeyError key))
          | (out, inl anomaly_count) =>
              (out ++ [rule; total_line anomaly_count; note_line], None)
          end
      end
  end.

End Script.

(** ** Properties of the wrapper *)

Section Properties.

Variable L : sklearn.

Implicit Types (self : LogAnomalyDetector L) (new_logs logs : list string).

(** *** The guard of [predict] *)

Lemma predict_untrained self new_logs :
  is_trained self = false ->
  predict new_logs self = (self, Raise NotTrained).
Proof.
  intros Hflag. unfold predict, bind, gets. rewrite Hflag. reflexivity.
Qed.

(** The body of [predict] past the guard, as one case analysis over the
    three calls that can raise. *)
Lemma predict_trained self new_logs :
  is_trained self = true ->
  predict new_logs self =
  (self,
   match transform L (vectorizer self) new_logs with
   | Raise e => Raise e
   | Ok X_new =>
       match sk_predict L (model self) X_new with
       | Raise e => Raise e
       | Ok predictions =>
           pd_DataFrame [("Log_Message", new_logs);
                         ("Status", map status predictions)]
       end
   end).
Proof.
  intros Hflag. unfold predict, bind, gets, call, ret. rewrite Hflag.
  cbn [negb].
  destruct (transform L (vectorizer self) new_logs) as [X|e]; [|reflexivity].
  destruct (sk_predict L (model self) X) as [ps|e]; [|reflexivity].
  now destruct (pd_DataFrame [("Log_Message", new_logs); ("Status", map status ps)]).
Qed.

(** No path through [predict] assigns an attribute. *)
Lemma predict_state self new_logs : fst (predict new_logs self) = self.
Proof.
  destruct (is_trained self) eqn:Hflag.
  - rewrite predict_trained by assumption. reflexivity.
  - rewrite predict_untrained by assumption. reflexivity.
Qed.

(** *** The flag written by [train] *)

Lemma train_flag g logs self :
  is_trained (fst (train g logs self))
  = is_trained self || returned (snd (train g logs self)).
Proof.
  unfold train, bind, vectorizer_fit_transform, model_fit, modify.
  destruct (fit_transform L (vectorizer self) logs) as [v' [X|e]]; cbn.
  - destruct (fit L (model self) g X) as [m' [[]|e]]; cbn.
    + now rewrite orb_true_r.
    + now rewrite orb_false_r.
  - now rewrite orb_false_r.
Qed.

Lemma exec_flag (c : method_call L) self :
  is_trained (fst (exec c self))
  = is_trained self
    || match c with Train _ _ => snd (exec c self) | Predict _ => false end.
Proof.
  destruct c as [g logs|new_logs]; unfold exec.
  - pose proof (train_flag g logs self) as H.
    destruct (train g logs self) as [s r]. exact H.
  - pose proof (predict_state self new_logs) as H.
    destruct (predict new_logs self) as [s r]. cbn [fst] in *. subst s.
    now rewrite orb_false_r.
Qed.

(** The flag is set exactly when it was set before or a [train] call of
    the history returned. *)
Lemma run_flag (h : list (method_call L)) : forall self,
  is_trained (run h self) = is_trained self || train_completed h self.
Proof.
  induction h as [|c h IH]; intros self.
  - cbn. now rewrite orb_false_r.
  - cbn [run train_completed]. rewrite IH, exec_flag, orb_assoc. reflexivity.
Qed.

Lemma run_predicts_state (batches : list (list string)) : forall self,
  run_predicts batches self = self.
Proof.
  unfold run_predicts.
  induction batches as [|b bs IH]; intros self; [reflexivity|].
  cbn [map run]. 
  assert (Hexec : fst (exec (Predict b) self) = self).
  { unfold exec. pose proof (predict_state self b) as H.
    destruct (predict b self) as [s r]. exact H. }
  rewrite Hexec. apply IH.
Qed.

(** *** The frame built by [predict] *)

Lemma same_length_two (a b : string) (xs ys : list string) :
  length ys = length xs ->
  pd_DataFrame [(a, xs); (b, ys)] = Ok {| columns := [(a, xs); (b, ys)] |}.
Proof.
  intros Hlen. unfold pd_DataFrame, same_length. cbn.
  rewrite Hlen, Nat.eqb_refl. reflexivity.
Qed.

Lemma predict_ok self new_logs X predictions :
  is_trained self = true ->
  transform L (vectorizer self) new_logs = Ok X ->
  sk_predict L (model self) X = Ok predictions ->
  length predictions = length new_logs ->
  predict new_logs self =
  (self, Ok {| columns := [("Log_Message", new_logs);
                           ("Status", map status predictions)] |}).
Proof.
  intros Hflag HX Hp Hlen.
  rewrite predict_trained, HX, Hp by assumption.
  rewrite same_length_two; [reflexivity|].
  now rewrite length_map.
Qed.

Lemma iloc_two (a b : string) (xs ys : list string) i x y :
  nth_error xs i = Some x ->
  nth_error ys i = Some y ->
  iloc {| columns := [(a, xs); (b, ys)] |} i = Some [(a, x); (b, y)].
Proof.
  intros Hx Hy. unfold iloc, nrows. cbn [columns iloc_cols].
  assert (Hlt : i < length xs) by (apply nth_error_Some; congruence).
  apply Nat.ltb_lt in Hlt. rewrite Hlt, Hx, Hy. reflexivity.
Qed.

Lemma status_cases p :
  (p = (-1)%Z /\ status p = ANOMALY) \/ (p <> (-1)%Z /\ status p = NORMAL).
Proof.
  unfold status. destruct (Z.eqb_spec p (-1)); [left|right]; auto.
Qed.

Lemma ANOMALY_neq_NORMAL : ANOMALY <> NORMAL.
Proof. discriminate. Qed.

End Properties.

(** ** The properties of the specification *)

(** *** C1 *)

(** C1, as stated, fails: on a trained detector and two lines (one from
    the normal traffic of the script, one from its attack traffic),
    [predict] returns a frame whose rows have two fields, the line and its
    status; no row is a triple and no score is returned. *)
Lemma predict_rows_are_not_triples :
  ~ (exists df,
        snd (predict [Mock.normal_log; Mock.attack_log] Mock.trained) = Ok df
        /\ width df = 3).
Proof.
  intros [df [Hres Hw]]. vm_compute in Hres.
  injection Hres as <-. discriminate Hw.
Qed.

(** C1, amended: for every trained detector and every list of lines on
    which the vectorizer and the forest answer with one prediction per
    line, [predict] returns a two-column frame that pairs each original
    line with a binary verdict, ANOMALY exactly when the forest's
    prediction is -1 and Normal otherwise. *)
Theorem predict_returns_line_verdict_pairs
  (L : sklearn) (self : LogAnomalyDetector L) (new_logs : list string)
  (X : csr_matrix L) (predictions : list Z) :
  is_trained self = true ->
  transform L (vectorizer self) new_logs = Ok X ->
  sk_predict L (model self) X = Ok predictions ->
  length predictions = length new_logs ->
  exists df,
    predict new_logs self = (self, Ok df)
    /\ width df = 2
    /\ forall i line, nth_error new_logs i = Some line ->
         exists p,
           nth_error predictions i = Some p
           /\ iloc df i = Some [("Log_Message", line); ("Status", status p)]
           /\ (status p = ANOMALY \/ status p = NORMAL)
           /\ (status p = ANOMALY <-> p = (-1)%Z).
Proof.
  intros Hflag HX Hp Hlen.
  eexists. split; [eapply predict_ok; eassumption|].
  split; [reflexivity|].
  intros i line Hline.
  assert (Hi : i < length predictions).
  { rewrite Hlen. apply nth_error_Some. congruence. }
  destruct (nth_error predictions i) as [p|] eqn:Hpi;
    [|apply nth_error_None in Hpi; lia].
  exists p. split; [reflexivity|]. split.
  - apply iloc_two; [assumption|]. now apply map_nth_error.
  - destruct (status_cases p) as [[Hm Hs]|[Hm Hs]]; rewrite Hs.
    + split; [now left|]. split; auto.
    + split; [now right|]. split; [|contradiction].
      intros Heq. symmetry in Heq. now apply ANOMALY_neq_NORMAL in Heq.
Qed.

Lemma predict_returns_line_verdict_pairs_witness :
  exists df,
    predict [Mock.normal_log; Mock.attack_log] Mock.trained = (Mock.trained, Ok df)
    /\ width df = 2
    /\ forall i line,
         nth_error [Mock.normal_log; Mock.attack_log] i = Some line ->
         exists p,
           nth_error [1%Z; (-1)%Z] i = Some p
           /\ iloc df i = Some [("Log_Message", line); ("Status", status p)]
           /\ (status p = ANOMALY \/ status p = NORMAL)
           /\ (status p = ANOMALY <-> p = (-1)%Z).
Proof.
  apply (@predict_returns_line_verdict_pairs Mock.lib Mock.trained
           [Mock.normal_log; Mock.attack_log]
           [[1; 1; 1; 1; 1; 1]; [0; 0; 0; 0; 0; 0]] [1%Z; (-1)%Z]);
    reflexivity.
Defined.

(** *** C2 *)

(** C2: on a detector whose history since construction holds no [train]
    call that returned, [predict] raises the not-trained exception for
    every list of lines, and returns no frame. *)
Theorem predict_before_train_raises
  (L : sklearn) (contamination : Q) (h : list (method_call L))
  (new_logs : list string) :
  train_completed h (__init__ L contamination) = false ->
  predict new_logs (run h (__init__ L contamination))
  = (run h (__init__ L contamination), Raise NotTrained)
  /\ forall df,
       snd (predict new_logs (run h (__init__ L contamination))) <> Ok df.
Proof.
  intros Hnone.
  assert (Hflag : is_trained (run h (__init__ L contamination)) = false).
  { rewrite run_flag, Hnone. reflexivity. }
  rewrite (predict_untrained _ new_logs Hflag).
  split; [reflexivity|]. intros df. discriminate.
Qed.

Lemma predict_before_train_raises_witness :
  train_completed Mock.untrained_history (__init__ Mock.lib default_contamination) = false
  /\ predict [Mock.attack_log]
       (run Mock.untrained_history (__init__ Mock.lib default_contamination))
     = (run Mock.untrained_history (__init__ Mock.lib default_contamination),
        Raise NotTrained).
Proof.
  split; [reflexivity|].
  apply (@predict_before_train_raises Mock.lib default_contamination
           Mock.untrained_history [Mock.attack_log]).
  reflexivity.
Defined.

(** *** C4 *)

(** With [random_state=None] the instance's forest does depend on the
    ambient generator, so [seeded_fit_reproducible] is about the seed. *)
Lemma unseeded_fit_depends_on_ambient :
  fit Mock.lib {| Mock.contamination := default_contamination;
                  Mock.random_state := None;
                  Mock.estimators_ := None |} 1%Z [[1]]
  <> fit Mock.lib {| Mock.contamination := default_contamination;
                     Mock.random_state := None;
                     Mock.estimators_ := None |} 2%Z [[1]].
Proof. discriminate. Qed.




(** *** C6 *)




(** *** C9 *)

(** C9: once [train] has returned, no sequence of later [predict] calls
    changes the detector: the vectorizer (vocabulary and document
    frequencies), the forest and the flag after the calls are those left
    by [train], and each single call hands back the state it was given. *)
Theorem predict_leaves_model_unchanged
  (L : sklearn) (g : RandomState L) (logs : list string)
  (self0 : LogAnomalyDetector L) (batches : list (list string)) :
  snd (train g logs self0) = Ok tt ->
  let self := fst (train g logs self0) in
  run_predicts batches self = self
  /\ vectorizer (run_predicts batches self) = vectorizer self
  /\ model (run_predicts batches self) = model self
  /\ is_trained (run_predicts batches self) = true
  /\ forall new_logs, fst (predict new_logs self) = self.
Proof.
  intros Hdone self.
  assert (Hflag : is_trained self = true).
  { unfold self. rewrite train_flag, Hdone. apply orb_true_r. }
  rewrite run_predicts_state. repeat split; try assumption.
  intros new_logs. apply predict_state.
Qed.

Lemma predict_leaves_model_unchanged_witness :
  run_predicts [[Mock.normal_log; Mock.attack_log]; []; [Mock.attack_log]]
    Mock.trained
  = Mock.trained.
Proof.
  apply (@predict_leaves_model_unchanged Mock.lib 0%Z [Mock.normal_log]
           (__init__ Mock.lib default_contamination)
           [[Mock.normal_log; Mock.attack_log]; []; [Mock.attack_log]]).
  reflexivity.
Defined.

(** *** C10 *)



(** ** Further properties of the class *)

Section ClassProperties.

Variable L : sklearn.

Implicit Types (self : LogAnomalyDetector L) (new_logs logs : list string).

Lemma pd_DataFrame_two (a b : string) (xs ys : list string) :
  pd_DataFrame [(a, xs); (b, ys)]
  = if Nat.eqb (length ys) (length xs)
    then Ok {| columns := [(a, xs); (b, ys)] |}
    else Raise (ValueError "All arrays must be of the same length").
Proof.
  unfold pd_DataFrame, same_length. cbn [forallb snd].
  rewrite Nat.eqb_refl, andb_true_r. reflexivity.
Qed.

(** The state [train] leaves, whatever its outcome. *)
Lemma train_unfold g logs self :
  train g logs self =
  match fit_transform L (vectorizer self) logs with
  | (v', Raise e) => (set_vectorizer v' self, Raise e)
  | (v', Ok X) =>
      match fit L (model self) g X with
      | (m', Raise e) => (set_model m' (set_vectorizer v' self), Raise e)
      | (m', Ok _) =>
          (set_is_trained true (set_model m' (set_vectorizer v' self)), Ok tt)
      end
  end.
Proof.
  unfold train, bind, vectorizer_fit_transform, model_fit, modify.
  destruct (fit_transform L (vectorizer self) logs) as [v' [X|e]];
    [|reflexivity].
  cbn [model set_vectorizer].
  destruct (fit L (model self) g X) as [m' [[]|e]]; reflexivity.
Qed.

End ClassProperties.

(** X1: from construction on, the flag [is_trained] is set exactly when
    some [train] call of the history has returned, and it is never reset:
    whatever calls follow, failed retrainings included, a detector that
    was trained stays marked trained. *)
Theorem is_trained_iff_train_completed
  (L : sklearn) (contamination : Q) (h1 h2 : list (method_call L)) :
  is_trained (run h1 (__init__ L contamination))
  = train_completed h1 (__init__ L contamination)
  /\ (train_completed h1 (__init__ L contamination) = true ->
      is_trained (run h2 (run h1 (__init__ L contamination))) = true).
Proof.
  assert (Hflag : is_trained (run h1 (__init__ L contamination))
                  = train_completed h1 (__init__ L contamination)).
  { rewrite run_flag. reflexivity. }
  split; [exact Hflag|].
  intros Hdone. rewrite run_flag, Hflag, Hdone. reflexivity.
Qed.

Lemma is_trained_iff_train_completed_witness :
  train_completed [@Train Mock.lib 0%Z [Mock.normal_log]]
    (__init__ Mock.lib default_contamination) = true
  /\ is_trained
       (run [@Train Mock.lib 7%Z ["the a"; "of"]; @Predict Mock.lib []]
          (run [@Train Mock.lib 0%Z [Mock.normal_log]]
             (__init__ Mock.lib default_contamination))) = true.
Proof.
  split; [reflexivity|].
  apply (@is_trained_iff_train_completed Mock.lib default_contamination
           [@Train Mock.lib 0%Z [Mock.normal_log]]
           [@Train Mock.lib 7%Z ["the a"; "of"]; @Predict Mock.lib []]).
  reflexivity.
Defined.

(** X2: whatever the library does, a frame that [predict] returns comes
    from a trained detector and holds exactly the input lines, in order,
    as its Log_Message column and one status per line as its Status
    column: [predict] never returns a shorter or a longer frame. *)
Theorem predict_frame_is_well_formed
  (L : sklearn) (self : LogAnomalyDetector L) (new_logs : list string)
  (df : DataFrame) :
  snd (predict new_logs self) = Ok df ->
  is_trained self = true
  /\ nrows df = length new_logs
  /\ exists X predictions,
       transform L (vectorizer self) new_logs = Ok X
       /\ sk_predict L (model self) X = Ok predictions
       /\ length predictions = length new_logs
       /\ columns df = [("Log_Message", new_logs);
                        ("Status", map status predictions)].
Proof.
  intros Hret.
  destruct (is_trained self) eqn:Hflag.
  2:{ rewrite predict_untrained in Hret by assumption. discriminate. }
  rewrite predict_trained in Hret by assumption. cbn [snd] in Hret.
  destruct (transform L (vectorizer self) new_logs) as [X|e] eqn:HX;
    [|discriminate].
  destruct (sk_predict L (model self) X) as [ps|e] eqn:Hp; [|discriminate].
  rewrite pd_DataFrame_two, length_map in Hret.
  destruct (Nat.eqb_spec (length ps) (length new_logs)) as [Hlen|Hlen];
    [|discriminate].
  injection Hret as <-.
  split; [reflexivity|]. split; [reflexivity|].
  exists X, ps. repeat split; assumption.
Qed.

Lemma predict_frame_is_well_formed_witness :
  nrows {| columns := [("Log_Message", [Mock.normal_log; Mock.attack_log]);
                       ("Status", [NORMAL; ANOMALY])] |} = 2.
Proof.
  apply (@predict_frame_is_well_formed Mock.lib Mock.trained
           [Mock.normal_log; Mock.attack_log]).
  reflexivity.
Defined.

(** X3: [predict] raises [e] in exactly four situations: the detector is
    not trained and [e] is the not-trained exception; the vectorizer's
    [transform] raised [e]; the forest's [predict] raised [e]; or the
    forest answered with a number of predictions other than the number of
    lines and [e] is the length error of the frame constructor. *)
Theorem predict_raises_iff
  (L : sklearn) (self : LogAnomalyDetector L) (new_logs : list string)
  (e : exn) :
  snd (predict new_logs self) = Raise e
  <-> (is_trained self = false /\ e = NotTrained)
      \/ (is_trained self = true
          /\ (transform L (vectorizer self) new_logs = Raise e
              \/ exists X,
                   transform L (vectorizer self) new_logs = Ok X
                   /\ (sk_predict L (model self) X = Raise e
                       \/ exists predictions,
                            sk_predict L (model self) X = Ok predictions
                            /\ length predictions <> length new_logs
                            /\ e = ValueError
                                     "All arrays must be of the same length"))).
Proof.
  destruct (is_trained self) eqn:Hflag.
  - rewrite predict_trained by assumption. cbn [snd].
    destruct (transform L (vectorizer self) new_logs) as [X|e1] eqn:HX.
    + destruct (sk_predict L (model self) X) as [ps|e2] eqn:Hp.
      * rewrite pd_DataFrame_two, length_map.
        destruct (Nat.eqb_spec (length ps) (length new_logs)) as [Hlen|Hlen].
        -- split; [discriminate|].
           intros [[Hf _]|[_ [Hr|[X' [HX' [Hr|[ps' [Hp' [Hne _]]]]]]]]];
             try discriminate.
           ++ injection HX' as <-. rewrite Hp in Hr. discriminate.
           ++ injection HX' as <-. rewrite Hp in Hp'. injection Hp' as <-.
              contradiction.
        -- split.
           ++ intros Heq. injection Heq as <-. right. split; [reflexivity|].
              right. exists X. split; [reflexivity|]. right.
              exists ps. repeat split; assumption.
           ++ intros [[Hf _]|[_ [Hr|[X' [HX' [Hr|[ps' [_ [_ He]]]]]]]]];
                try discriminate.
              ** injection HX' as <-. rewrite Hp in Hr. discriminate.
              ** now subst e.
      * split.
        -- intros Heq. injection Heq as <-. right. split; [reflexivity|].
           right. exists X. split; [reflexivity|]. now left.
        -- intros [[Hf _]|[_ [Hr|[X' [HX' [Hr|[ps' [Hp' _]]]]]]]];
             try discriminate.
           ++ injection HX' as <-. rewrite Hp in Hr. now injection Hr as ->.
           ++ injection HX' as <-. rewrite Hp in Hp'. discriminate.
    + split.
      * intros Heq. injection Heq as <-. right. split; [reflexivity|].
        now left.
      * intros [[Hf _]|[_ [Hr|[X' [HX' _]]]]]; try discriminate.
        now injection Hr as ->.
  - rewrite predict_untrained by assumption. cbn [snd]. split.
    + intros Heq. injection Heq as <-. now left.
    + intros [[_ ->]|[Hf _]]; [reflexivity|discriminate].
Qed.

(** X4: a [train] call that raises never rolls back and never touches the
    flag: the vectorizer is left as [fit_transform] left it, the forest is
    untouched when [fit_transform] raised and is left as [fit] left it
    otherwise, and [is_trained] keeps its value, so a detector that was
    trained before a failed retraining still passes the guard of
    [predict]. *)
Theorem failed_train_keeps_flag
  (L : sklearn) (g : RandomState L) (logs : list string)
  (self : LogAnomalyDetector L) (e : exn) :
  snd (train g logs self) = Raise e ->
  is_trained (fst (train g logs self)) = is_trained self
  /\ vectorizer (fst (train g logs self))
     = fst (fit_transform L (vectorizer self) logs)
  /\ ((snd (fit_transform L (vectorizer self) logs) = Raise e
       /\ model (fst (train g logs self)) = model self)
      \/ exists X,
           snd (fit_transform L (vectorizer self) logs) = Ok X
           /\ fit L (model self) g X
              = (model (fst (train g logs self)), Raise e)).
Proof.
  rewrite train_unfold.
  destruct (fit_transform L (vectorizer self) logs) as [v' [X|e1]];
    cbn [fst snd].
  - destruct (fit L (model self) g X) as [m' [[]|e2]] eqn:Hfit;
      cbn [fst snd]; [discriminate|].
    intros Heq. injection Heq as <-.
    repeat split. right. exists X. split; [reflexivity|exact Hfit].
  - intros Heq. injection Heq as <-. repeat split. left. split; reflexivity.
Qed.

Lemma failed_train_keeps_flag_witness :
  is_trained (fst (train (L := Mock.lib) 7%Z ["the a"; "of"] Mock.trained))
  = true.
Proof.
  apply (@failed_train_keeps_flag Mock.lib 7%Z ["the a"; "of"] Mock.trained
           EmptyVocabulary).
  reflexivity.
Defined.

(** X3 at work: an untrained detector. *)
Lemma predict_raises_iff_witness :
  snd (predict [Mock.attack_log] (__init__ Mock.lib default_contamination))
  = Raise NotTrained.
Proof.
  apply (@predict_raises_iff Mock.lib (__init__ Mock.lib default_contamination)
           [Mock.attack_log] NotTrained).
  left. split; reflexivity.
Defined.

(** ** Properties of the script *)

Section ConsoleProperties.

Variable L : sklearn.

Implicit Types (self : LogAnomalyDetector L) (out : list string).

(** X5: the prints of [train] do not change what the method does to the
    detector nor what it returns; it always prints the learning line with
    the number of records first, and prints the success line exactly when
    it returns. *)
Theorem train_io_prints (g : RandomState L) (logs : list string) self out :
  train_io g logs (self, out)
  = ((fst (train g logs self),
      out ++ learning_line (length logs)
          :: (if returned (snd (train g logs self))
              then [trained_line] else [])),
     snd (train g logs self)).
Proof.
  rewrite train_unfold.
  unfold train_io, bind, print, modify, on_self, vectorizer_fit_transform,
    model_fit.
  cbn [fst snd].
  destruct (fit_transform L (vectorizer self) logs) as [v' [X|e]];
    [|reflexivity].
  cbn [fst snd model set_vectorizer].
  destruct (fit L (model self) g X) as [m' [[]|e]]; cbn [fst snd returned];
    [|reflexivity].
  rewrite <- app_assoc. reflexivity.
Qed.

(** X6: the print of [predict] does not change the detector nor the
    result; the scanning line is printed exactly when the detector passes
    the trained guard, also when a later step raises. *)
Theorem predict_io_prints (new_logs : list string) self out :
  predict_io new_logs (self, out)
  = ((self, out ++ (if is_trained self
                    then [scanning_line (length new_logs)] else [])),
     snd (predict new_logs self)).
Proof.
  destruct (is_trained self) eqn:Hflag.
  - rewrite predict_trained by assumption.
    unfold predict_io, bind, print, modify, on_self, gets, call, ret.
    cbn [fst snd]. rewrite Hflag. cbn [negb fst snd].
    destruct (transform L (vectorizer self) new_logs) as [X|e];
      [|reflexivity].
    destruct (sk_predict L (model self) X) as [ps|e]; [|reflexivity].
    now destruct (pd_DataFrame [("Log_Message", new_logs);
                                ("Status", map status ps)]).
  - rewrite predict_untrained by assumption.
    unfold predict_io, bind, on_self, gets, raise.
    cbn [fst snd]. rewrite Hflag. cbn [negb]. now rewrite app_nil_r.
Qed.

End ConsoleProperties.

(** *** The report loop *)

Lemma report_loop_detected (rows : list (nat * list (string * string))) :
  forall (out : list string) (n : nat),
  Forall (fun ir => field (snd ir) "Status" <> None
                    /\ field (snd ir) "Log_Message" <> None) rows ->
  report_loop rows out n
  = (out ++ detected_lines (map snd rows),
     inl (n + length (detected_lines (map snd rows)))).
Proof.
  induction rows as [|[i row] rest IH]; intros out n Hall.
  - cbn. now rewrite app_nil_r, Nat.add_0_r.
  - inversion Hall as [|? ? [Hst Hmsg] Hrest]; subst. cbn [snd] in Hst, Hmsg.
    cbn [report_loop map snd detected_lines flat_map].
    destruct (field row "Status") as [st|]; [|contradiction].
    destruct (field row "Log_Message") as [msg|]; [|contradiction].
    fold (detected_lines (map snd rest)).
    destruct (String.eqb st ANOMALY).
    + rewrite IH by assumption. rewrite <- app_assoc. cbn [app length].
      now rewrite Nat.add_succ_r.
    + rewrite IH by assumption. reflexivity.
Qed.

Lemma flat_map_map {A B C : Type} (f : B -> list C) (g : A -> B) (l : list A) :
  flat_map f (map g l) = flat_map (fun x => f (g x)) l.
Proof. induction l as [|x l IH]; cbn; [reflexivity|now rewrite IH]. Qed.

(** Enumerating a list by index visits its elements in order. *)
Lemma enumerate_by_index {A B : Type} (l : list A) :
  forall (idx : nat -> nat) (h : A -> B),
  map snd (flat_map (fun i => match nth_error l i with
                              | Some x => [(idx i, h x)]
                              | None => []
                              end)
                    (seq 0 (length l)))
  = map h l.
Proof.
  induction l as [|x l IH]; intros idx h; [reflexivity|].
  cbn [length seq flat_map nth_error app map snd].
  rewrite <- seq_shift, flat_map_map. cbn [nth_error].
  f_equal. apply (IH (fun i => idx (S i)) h).
Qed.

Lemma nth_error_combine {A B : Type} (xs : list A) :
  forall (ys : list B) (i : nat),
  nth_error (combine xs ys) i
  = match nth_error xs i, nth_error ys i with
    | Some x, Some y => Some (x, y)
    | _, _ => None
    end.
Proof.
  induction xs as [|x xs IH]; intros ys i.
  - destruct i; reflexivity.
  - destruct ys as [|y ys].
    + destruct i as [|i]; cbn; [reflexivity|]. now destruct (nth_error xs i).
    + destruct i as [|i]; cbn; [reflexivity|apply IH].
Qed.

(** The rows of a two-column frame, in index order. *)
Lemma iterrows_two (a b : string) (xs ys : list string) :
  length ys = length xs ->
  map snd (iterrows {| columns := [(a, xs); (b, ys)] |})
  = map (fun xy => [(a, fst xy); (b, snd xy)]) (combine xs ys).
Proof.
  intros Hlen.
  assert (Hn : length xs = length (combine xs ys)).
  { rewrite length_combine, Hlen. now rewrite Nat.min_id. }
  unfold iterrows, nrows. cbn [columns]. rewrite Hn.
  rewrite <- (enumerate_by_index (combine xs ys) (fun i => i)
                (fun xy => [(a, fst xy); (b, snd xy)])).
  f_equal. apply flat_map_ext. intros i.
  unfold iloc, nrows. cbn [columns iloc_cols].
  rewrite nth_error_combine.
  destruct (Nat.ltb_spec i (length xs)) as [Hlt|Hge].
  - destruct (nth_error xs i) as [x|]; [|reflexivity].
    destruct (nth_error ys i) as [y|]; reflexivity.
  - apply nth_error_None in Hge. now rewrite Hge.
Qed.

Lemma field_Status (line st : string) :
  field [("Log_Message", line); ("Status", st)] "Status" = Some st.
Proof. reflexivity. Qed.

Lemma field_Log_Message (line st : string) :
  field [("Log_Message", line); ("Status", st)] "Log_Message" = Some line.
Proof. reflexivity. Qed.

Lemma status_eqb_ANOMALY (p : Z) :
  String.eqb (status p) ANOMALY = Z.eqb p (-1).
Proof.
  unfold status. destruct (Z.eqb p (-1)); reflexivity.
Qed.

Lemma detected_lines_predicted (new_logs : list string) :
  forall predictions : list Z,
  detected_lines (map (fun xy => [("Log_Message", fst xy); ("Status", snd xy)])
                      (combine new_logs (map status predictions)))
  = map (detected_line ANOMALY) (flagged new_logs predictions).
Proof.
  unfold flagged.
  induction new_logs as [|l ls IH]; intros [|p ps]; try reflexivity.
  cbn [map combine detected_lines flat_map fst snd filter].
  rewrite field_Status, field_Log_Message, status_eqb_ANOMALY.
  fold (detected_lines
          (map (fun xy => [("Log_Message", fst xy); ("Status", snd xy)])
               (combine ls (map status ps)))).
  rewrite IH. unfold status.
  destruct (Z.eqb p (-1)); reflexivity.
Qed.

Lemma flagged_length (new_logs : list string) :
  forall predictions : list Z,
  length predictions = length new_logs ->
  length (flagged new_logs predictions)
  = count_occ Z.eq_dec predictions (-1)%Z.
Proof.
  unfold flagged.
  induction new_logs as [|l ls IH]; intros [|p ps] Hlen; try discriminate;
    [reflexivity|].
  injection Hlen as Hlen. cbn [combine filter snd count_occ].
  destruct (Z.eqb_spec p (-1)) as [->|Hne].
  - destruct (Z.eq_dec (-1) (-1)) as [_|Hne]; [|contradiction].
    cbn [map length]. now rewrite IH.
  - destruct (Z.eq_dec p (-1)) as [Heq|_]; [contradiction|]. now apply IH.
Qed.

Lemma predicted_rows_have_columns (new_logs statuses : list string) :
  length statuses = length new_logs ->
  Forall (fun ir => field (snd ir) "Status" <> None
                    /\ field (snd ir) "Log_Message" <> None)
         (iterrows {| columns := [("Log_Message", new_logs);
                                  ("Status", statuses)] |}).
Proof.
  intros Hlen. apply Forall_forall. intros [i row] Hin.
  apply (in_map snd) in Hin. rewrite iterrows_two in Hin by assumption.
  apply in_map_iff in Hin as [[l st] [<- _]]. cbn. split; discriminate.
Qed.

Lemma detected_lines_length (rows : list (nat * list (string * string))) :
  Forall (fun ir => field (snd ir) "Status" <> None
                    /\ field (snd ir) "Log_Message" <> None) rows ->
  length (detected_lines (map snd rows))
  = length (filter (fun ir => match field (snd ir) "Status" with
                              | Some st => String.eqb st ANOMALY
                              | None => false
                              end) rows).
Proof.
  induction 1 as [|[i row] rest [Hst Hmsg] _ IH]; [reflexivity|].
  cbn [snd] in Hst, Hmsg.
  cbn [map snd detected_lines flat_map filter].
  fold (detected_lines (map snd rest)).
  destruct (field row "Status") as [st|]; [|contradiction].
  destruct (field row "Log_Message") as [msg|]; [|contradiction].
  rewrite length_app, IH. now destruct (String.eqb st ANOMALY).
Qed.

(** X7: on rows that all have a Status and a Log_Message column, the
    report loop never fails; it appends to the output one line per row
    whose Status is the anomaly label, in row order, prints nothing for
    the other rows, and raises the counter by the number of those rows. *)
Theorem report_loop_counts_anomalies
  (rows : list (nat * list (string * string))) (out : list string) (n : nat) :
  Forall (fun ir => field (snd ir) "Status" <> None
                    /\ field (snd ir) "Log_Message" <> None) rows ->
  exists printed,
    report_loop rows out n = (out ++ printed, inl (n + length printed))
    /\ printed = detected_lines (map snd rows)
    /\ length printed
       = length (filter (fun ir => match field (snd ir) "Status" with
                                   | Some st => String.eqb st ANOMALY
                                   | None => false
                                   end) rows).
Proof.
  intros Hall. exists (detected_lines (map snd rows)).
  split; [now apply report_loop_detected|].
  split; [reflexivity|now apply detected_lines_length].
Qed.

Lemma report_loop_counts_anomalies_witness :
  exists printed,
    report_loop [(0, [("Log_Message", "a"); ("Status", NORMAL)]);
                 (1, [("Log_Message", "b"); ("Status", ANOMALY)])] ["x"] 0
    = (["x"] ++ printed, inl (0 + length printed))
    /\ printed
       = detected_lines (map snd [(0, [("Log_Message", "a"); ("Status", NORMAL)]);
                                  (1, [("Log_Message", "b"); ("Status", ANOMALY)])])
    /\ length printed = 1.
Proof.
  apply (@report_loop_counts_anomalies
           [(0, [("Log_Message", "a"); ("Status", NORMAL)]);
            (1, [("Log_Message", "b"); ("Status", ANOMALY)])] ["x"] 0).
  repeat constructor; discriminate.
Defined.

Lemma report_loop_predicted (new_logs : list string) (predictions : list Z)
  (out : list string) :
  length predictions = length new_logs ->
  report_loop (iterrows {| columns := [("Log_Message", new_logs);
                                       ("Status", map status predictions)] |})
              out 0
  = (out ++ map (detected_line ANOMALY) (flagged new_logs predictions),
     inl (count_occ Z.eq_dec predictions (-1)%Z)).
Proof.
  intros Hlen.
  assert (Hlen' : length (map status predictions) = length new_logs)
    by now rewrite length_map.
  rewrite report_loop_detected by now apply predicted_rows_have_columns.
  rewrite iterrows_two by assumption.
  rewrite detected_lines_predicted, length_map, flagged_length by assumption.
  reflexivity.
Qed.

(** X8: on a frame built by [predict] from lines and their predictions,
    the report loop prints, in the order of the input, exactly the lines
    whose prediction is -1, each behind the anomaly label, and counts as
    many anomalies as there are predictions equal to -1. *)
Theorem report_of_predicted_frame
  (new_logs : list string) (predictions : list Z) (out : list string) :
  length predictions = length new_logs ->
  report_loop (iterrows {| columns := [("Log_Message", new_logs);
                                       ("Status", map status predictions)] |})
              out 0
  = (out ++ map (detected_line ANOMALY) (flagged new_logs predictions),
     inl (count_occ Z.eq_dec predictions (-1)%Z))
  /\ length (flagged new_logs predictions)
     = count_occ Z.eq_dec predictions (-1)%Z
  /\ incl (flagged new_logs predictions) new_logs.
Proof.
  intros Hlen. split; [now apply report_loop_predicted|].
  split; [now apply flagged_length|].
  intros l Hin. unfold flagged in Hin.
  apply in_map_iff in Hin as [[l' p] [<- Hin]].
  apply filter_In in Hin as [Hin _]. now apply in_combine_l in Hin.
Qed.

Lemma report_of_predicted_frame_witness :
  report_loop
    (iterrows {| columns := [("Log_Message", ["a"; "b"; "c"]);
                             ("Status", map status [(-1)%Z; 1%Z; (-1)%Z])] |})
    [] 0
  = ([] ++ map (detected_line ANOMALY) (flagged ["a"; "b"; "c"] [(-1)%Z; 1%Z; (-1)%Z]),
     inl (count_occ Z.eq_dec [(-1)%Z; 1%Z; (-1)%Z] (-1)%Z)).
Proof.
  apply (@report_of_predicted_frame ["a"; "b"; "c"] [(-1)%Z; 1%Z; (-1)%Z] []).
  reflexivity.
Defined.

(** *** The [__main__] block *)

Lemma main_cases (L : sklearn) (g : RandomState L) :
  match snd (train g NORMAL_TRAFFIC (__init__ L (1 # 10)%Q)) with
  | Raise e =>
      main L g = ([banner; learning_line 50], Some (DetectorError e))
  | Ok _ =>
      match snd (predict live_stream
                   (fst (train g NORMAL_TRAFFIC (__init__ L (1 # 10)%Q)))) with
      | Raise e =>
          main L g = ([banner; learning_line 50; trained_line; rule;
                     scanning_line 70],
                    Some (DetectorError e))
      | Ok results =>
          exists predictions,
            length predictions = 70
            /\ columns results = [("Log_Message", live_stream);
                                  ("Status", map status predictions)]
            /\ main L g
               = ([banner; learning_line 50; trained_line; rule;
                   scanning_line 70; report_header; rule]
                  ++ map (detected_line ANOMALY)
                         (flagged live_stream predictions)
                  ++ [rule;
                      total_line (count_occ Z.eq_dec predictions (-1)%Z);
                      note_line],
                  None)
      end
  end.
Proof.
  unfold main. cbv zeta. rewrite train_io_prints.
  change (length NORMAL_TRAFFIC) with 50.
  pose proof (train_flag g NORMAL_TRAFFIC (__init__ L (1 # 10)%Q)) as Hflag.
  destruct (train g NORMAL_TRAFFIC (__init__ L (1 # 10)%Q)) as [d1 [[]|e]];
    cbn [fst snd returned] in *; [|reflexivity].
  rewrite orb_true_r in Hflag.
  rewrite predict_io_prints, Hflag.
  change (length live_stream) with 70.
  rewrite predict_trained by assumption. cbn [snd].
  destruct (transform L (vectorizer d1) live_stream) as [X|e]; [|reflexivity].
  destruct (sk_predict L (model d1) X) as [ps|e]; [|reflexivity].
  rewrite pd_DataFrame_two, length_map.
  destruct (Nat.eqb_spec (length ps) (length live_stream)) as [Hlen|Hlen];
    [|reflexivity].
  exists ps. split; [exact Hlen|]. split; [reflexivity|].
  rewrite report_loop_predicted by assumption.
  cbn [app]. reflexivity.
Qed.

(** X9: for every library, the script ends in one of three ways.  If
    [train] raises, the script stops with that exception after the banner
    and the learning line for 50 records.  If [train] returns and
    [predict] raises, it stops with that exception after the scanning
    line for 70 logs, which is always printed since the detector is
    trained by then.  Otherwise it prints the report: one line per
    prediction equal to -1, in stream order, then the total, which is the
    number of such predictions among the 70. *)
Theorem main_outcome (L : sklearn) (g : RandomState L) :
  match snd (train g NORMAL_TRAFFIC (__init__ L (1 # 10)%Q)) with
  | Raise e =>
      main L g = ([banner; learning_line 50], Some (DetectorError e))
  | Ok _ =>
      match snd (predict live_stream
                   (fst (train g NORMAL_TRAFFIC (__init__ L (1 # 10)%Q)))) with
      | Raise e =>
          main L g = ([banner; learning_line 50; trained_line; rule;
                       scanning_line 70],
                      Some (DetectorError e))
      | Ok results =>
          exists predictions,
            length predictions = 70
            /\ columns results = [("Log_Message", live_stream);
                                  ("Status", map status predictions)]
            /\ main L g
               = ([banner; learning_line 50; trained_line; rule;
                   scanning_line 70; report_header; rule]
                  ++ map (detected_line ANOMALY)
                         (flagged live_stream predictions)
                  ++ [rule;
                      total_line (count_occ Z.eq_dec predictions (-1)%Z);
                      note_line],
                  None)
      end
  end.
Proof. apply main_cases. Qed.

(** X10: whenever the script runs to its end, the total it prints is the
    number of DETECTED lines it printed, it is at most 70, and every
    DETECTED line is the anomaly label followed by a line of the live
    stream. *)
Theorem main_report_is_consistent
  (L : sklearn) (g : RandomState L) (out : list string) :
  main L g = (out, None) ->
  exists detected,
    out = [banner; learning_line 50; trained_line; rule;
           scanning_line 70; report_header; rule]
          ++ detected
          ++ [rule; total_line (length detected); note_line]
    /\ length detected <= 70
    /\ Forall (fun d => exists line,
                   In line live_stream /\ d = detected_line ANOMALY line)
              detected.
Proof.
  intros Hend. pose proof (@main_cases L g) as Hcases.
  destruct (snd (train g NORMAL_TRAFFIC (__init__ L (1 # 10)%Q))) as [[]|e].
  2:{ rewrite Hcases in Hend. discriminate. }
  destruct (snd (predict live_stream
                   (fst (train g NORMAL_TRAFFIC (__init__ L (1 # 10)%Q)))))
    as [results|e].
  2:{ rewrite Hcases in Hend. discriminate. }
  destruct Hcases as [ps [Hlen [_ Hmain]]].
  rewrite Hmain in Hend. injection Hend as <-.
  assert (Hlen' : length ps = length live_stream) by exact Hlen.
  exists (map (detected_line ANOMALY) (flagged live_stream ps)).
  rewrite length_map, flagged_length by assumption.
  split; [reflexivity|]. split.
  - rewrite <- Hlen. apply count_occ_bound.
  - apply Forall_forall. intros d Hin.
    apply in_map_iff in Hin as [line [<- Hin]].
    exists line. split; [|reflexivity].
    unfold flagged in Hin. apply in_map_iff in Hin as [[l p] [<- Hin]].
    apply filter_In in Hin as [Hin _]. now apply in_combine_l in Hin.
Qed.

Lemma main_report_is_consistent_witness :
  exists detected,
    fst (main Mock.lib 0%Z)
    = [banner; learning_line 50; trained_line; rule;
       scanning_line 70; report_header; rule]
      ++ detected
      ++ [rule; total_line (length detected); note_line]
    /\ length detected <= 70
    /\ Forall (fun d => exists line,
                   In line live_stream /\ d = detected_line ANOMALY line)
              detected.
Proof.
  apply (@main_report_is_consistent Mock.lib 0%Z (fst (main Mock.lib 0%Z))).
  vm_compute. reflexivity.
Defined.

(** X11: for every library, the script never ends in the [KeyError] of a
    row lookup: the frame [predict] hands to the report loop always has
    the Status and Log_Message columns the loop reads. *)
Theorem main_never_raises_KeyError
  (L : sklearn) (g : RandomState L) (key : string) :
  snd (main L g) <> Some (KeyError key).
Proof.
  pose proof (@main_cases L g) as Hcases.
  destruct (snd (train g NORMAL_TRAFFIC (__init__ L (1 # 10)%Q))) as [[]|e].
  2:{ rewrite Hcases. discriminate. }
  destruct (snd (predict live_stream
                   (fst (train g NORMAL_TRAFFIC (__init__ L (1 # 10)%Q)))))
    as [results|e].
  2:{ rewrite Hcases. discriminate. }
  destruct Hcases as [ps [_ [_ Hmain]]]. rewrite Hmain. discriminate.
Qed.

(** *** [train] followed by [predict] *)

(** X12: after a [train] call in which [fit_transform] and [fit] both
    returned, [predict] passes the guard, vectorizes the new lines with
    the vectorizer that call fitted and asks the forest that call fitted
    on its output; its result is decided by those two objects alone. *)
Theorem predict_after_train
  (L : sklearn) (g : RandomState L) (logs new_logs : list string)
  (self : LogAnomalyDetector L)
  (v' : TfidfVectorizer_t L) (X : csr_matrix L) (m' : IsolationForest_t L) :
  fit_transform L (vectorizer self) logs = (v', Ok X) ->
  fit L (model self) g X = (m', Ok tt) ->
  snd (train g logs self) = Ok tt
  /\ fst (train g logs self)
     = {| vectorizer := v'; model := m'; is_trained := true |}
  /\ snd (predict new_logs (fst (train g logs self)))
     = match transform L v' new_logs with
       | Raise e => Raise e
       | Ok X_new =>
           match sk_predict L m' X_new with
           | Raise e => Raise e
           | Ok predictions =>
               pd_DataFrame [("Log_Message", new_logs);
                             ("Status", map status predictions)]
           end
       end.
Proof.
  intros Hvec Hfit. rewrite train_unfold, Hvec, Hfit. cbn [fst snd].
  split; [reflexivity|]. split; [reflexivity|].
  rewrite predict_trained by reflexivity. reflexivity.
Qed.

Lemma predict_after_train_witness :
  snd (train (L := Mock.lib) 0%Z [Mock.normal_log]
         (__init__ Mock.lib default_contamination)) = Ok tt.
Proof.
  apply (@predict_after_train Mock.lib 0%Z [Mock.normal_log] []
           (__init__ Mock.lib default_contamination)
           (vectorizer Mock.trained) [[1; 1; 1; 1; 1; 1]]
           (model Mock.trained));
    vm_compute; reflexivity.
Defined.
